(** * alertmanager-webhook-servicenow: the alert ingestion pipeline

    A shallow embedding of [main.go]: the mapper [alertToIncident], the
    pipeline [manageIncidents], the response helper [sendJSONResponse] and
    the handler [webhook], with the collaborators the program reaches through
    library interfaces (the ServiceNow client, the JSON decoder, the response
    writer, the logger) kept at their interface. *)

From Stdlib Require Import ZArith Ascii String.
From stdpp Require Import gmap strings list.

Local Open Scope Z_scope.
Local Open Scope string_scope.
Local Open Scope list_scope.

(** ** Data model *)

(** Go's [error] interface: a value whose [Error] method yields its text. *)
Record error := mkError { Error : string }.

(** [template.KV] is [map[string]string]; reading an absent key (also of a
    nil map) yields the zero value of the element type, the empty string. *)
Abbreviation KV := (gmap string string).

Definition index (m : KV) (key : string) : string :=
  match m !! key with
  | Some v => v
  | None => ""
  end.

(** [template.Alert] and [template.Data], as Alertmanager declares them, the
    two [Status] fields told apart by a prefix and a time held as its
    RFC 3339 text; the program reads [Labels] and [Annotations] of an alert,
    and [Status], [GroupLabels], [CommonLabels] and [Alerts] of a payload. *)
Record Alert := {
  AlertStatus : string;
  Labels : KV;
  Annotations : KV;
  StartsAt : string;
  EndsAt : string;
  GeneratorURL : string
}.

Record Data := {
  Receiver : string;
  DataStatus : string;
  Alerts : list Alert;
  GroupLabels : KV;
  CommonLabels : KV;
  CommonAnnotations : KV;
  ExternalURL : string
}.

(** Modelled from the spec: the declaration of [Incident] is not part of
    [main.go]; its seven fields are those of the composite literal in
    [alertToIncident], each a string as the spec's Ticket has them. *)
Record Incident := {
  AssignmentGroup : string;
  ContactType : string;
  CallerID : string;
  Description : string;
  Impact : string;
  ShortDescription : string;
  Urgency : string
}.

(** [Config], as far as [createSnClient] reads it: [ServiceNowSection] is
    its field [ServiceNow]. *)
Record ServiceNowConfig := {
  InstanceName : string;
  UserName : string;
  Password : string
}.

Record Config := { ServiceNowSection : ServiceNowConfig }.

(** [JSONResponse] is the Webhook http response. *)
Record JSONResponse := {
  Status : Z;
  Message : string
}.

(** ** The mapper *)

Definition alertToIncident (alert : Alert) : Incident :=
  let incident := {|
    AssignmentGroup := index (Labels alert) "assignment_group";
    ContactType := "Monitoring System";
    CallerID := "Prometheus";
    Description := index (Annotations alert) "description";
    Impact := "4";
    ShortDescription := index (Annotations alert) "summary";
    Urgency := "3"
  |} in
  incident.

(** ** Library interfaces *)

(** [net/http] status codes used by the handler. *)
Definition StatusOK : Z := 200.
Definition StatusBadRequest : Z := 400.
Definition StatusInternalServerError : Z := 500.

(** A JSON document: the value that the byte slice [json.Marshal] returns
    denotes, and that the decoder reads from a body. *)
#[warning="-register-all"]
Inductive json :=
| JNull
| JBool (b : bool)
| JNumber (n : Z)
| JString (s : string)
| JArray (items : list json)
| JObject (members : list (string * json)).

(** The value of member [key] of an object; member names are compared
    exactly, as JSON has them. *)
Fixpoint member (key : string) (members : list (string * json)) : option json :=
  match members with
  | [] => None
  | (k, v) :: rest => if decide (k = key) then Some v else member key rest
  end.

Definition keys (doc : json) : list string :=
  match doc with
  | JObject members => members.*1
  | _ => []
  end.

Definition field (key : string) (doc : json) : option json :=
  match doc with
  | JObject members => member key members
  | _ => None
  end.

(** A struct field as [encoding/json] finds it by reflection: the name the
    Go declaration gives it, the name a [json] tag gives it if it carries
    one, and its value as a document. *)
Record StructField := {
  goName : string;
  jsonTag : option string;
  fieldValue : json
}.

Definition memberName (f : StructField) : string :=
  match jsonTag f with
  | Some name => name
  | None => goName f
  end.

(** A struct is encoded as an object with one member per exported field, in
    declaration order. *)
Definition marshalStruct (fields : list StructField) : json :=
  JObject ((fun f => (memberName f, fieldValue f)) <$> fields).

(** The two fields of [JSONResponse] as declared: neither carries a tag; an
    [int] is a JSON number and a [string] a JSON string. *)
Definition JSONResponse_fields (data : JSONResponse) : list StructField :=
  [ {| goName := "Status"; jsonTag := None; fieldValue := JNumber (Status data) |};
    {| goName := "Message"; jsonTag := None; fieldValue := JString (Message data) |} ].

(** [json.Marshal] of a [JSONResponse]; it has no failure case for this
    struct. Strings are taken as text: the escapes of the byte form are
    below this model. *)
Definition Marshal (data : JSONResponse) : json :=
  marshalStruct (JSONResponse_fields data).

(** [http.ResponseWriter], as the server hands it to a handler: the status
    line once written, the documents passed to [Write] in order, and the
    error [Write] reports on this connection (nil on a healthy one). *)
Record ResponseWriter := {
  statusLine : option Z;
  written : list json;
  writeFault : option error
}.

Definition newResponseWriter (fault : option error) : ResponseWriter :=
  {| statusLine := None; written := []; writeFault := fault |}.

(** Only the first [WriteHeader] takes effect. *)
Definition WriteHeader (statusCode : Z) (w : ResponseWriter) : ResponseWriter :=
  match statusLine w with
  | Some _ => w
  | None => {| statusLine := Some statusCode; written := written w;
               writeFault := writeFault w |}
  end.

(** [Write] sends the header with [StatusOK] when none was written yet. *)
Definition Write (bytes : json) (w : ResponseWriter) : option error * ResponseWriter :=
  let w := WriteHeader StatusOK w in
  (writeFault w,
   {| statusLine := statusLine w; written := written w ++ [bytes];
      writeFault := writeFault w |}).

(** An HTTP request: the handler reads its body only. *)
Record Request := {
  Method : string;
  URLPath : string;
  Body : string
}.

(** The [ServiceNow] client interface: one operation, which answers with a
    response and an error (nil on success) and may change the state of the
    client and of the remote system behind it. *)
Class ServiceNow (Client Response : Type) := {
  CreateIncident : Incident -> Client -> (Response * option error) * Client
}.

(** Log records: level, format string and arguments as passed. *)
Inductive Level := Debug | Info | Err.

Inductive LogArg (Response : Type) :=
| ArgString (s : string)
| ArgKV (m : KV)
| ArgError (e : error)
| ArgResponse (r : Response).

Arguments ArgString {Response} s.
Arguments ArgKV {Response} m.
Arguments ArgError {Response} e.
Arguments ArgResponse {Response} r.

Record LogRecord (Response : Type) := {
  level : Level;
  format : string;
  args : list (LogArg Response)
}.

Arguments level {Response} _.
Arguments format {Response} _.
Arguments args {Response} _.

(** ** The program state and its monad *)

(** The globals [config] and [serviceNow], the trace of [CreateIncident]
    calls made so far and the log. *)
Record World (Client Response : Type) := {
  config : Config;
  serviceNow : Client;
  submitted : list Incident;
  journal : list (LogRecord Response)
}.

Arguments config {Client Response} _.
Arguments serviceNow {Client Response} _.
Arguments submitted {Client Response} _.
Arguments journal {Client Response} _.

Section Bridge.

Context {Client Response : Type} `{!ServiceNow Client Response}.

(** [json.NewDecoder(body).Decode(&data)] on a zero [template.Data]: the
    data as far as it was filled and the error (nil on success). *)
Variable Decode : string -> Data * option error.

Definition M (A : Type) : Type :=
  World Client Response -> A * World Client Response.

#[local] Instance M_ret : MRet M := fun A (a : A) s => (a, s).

#[local] Instance M_bind : MBind M := fun A B (f : A -> M B) (m : M A) s =>
  let '(a, s') := m s in f a s'.

Definition appendJournal (records : list (LogRecord Response)) (s : World Client Response)
  : World Client Response :=
  {| config := config s; serviceNow := serviceNow s; submitted := submitted s;
     journal := journal s ++ records |}.

Definition logf (lvl : Level) (fmt : string) (a : list (LogArg Response)) : M unit :=
  fun s => (tt, appendJournal [{| level := lvl; format := fmt; args := a |}] s).

Definition readConfig : M Config := fun s => (config s, s).

(** A method call on the global [serviceNow]. *)
Definition serviceNow_CreateIncident (incident : Incident) : M (Response * option error) :=
  fun s =>
    let '(out, client') := CreateIncident incident (serviceNow s) in
    (out, {| config := config s; serviceNow := client';
             submitted := submitted s ++ [incident];
             journal := journal s |}).

(** *** The pipeline *)

(** The loop [for _, alert := range data.Alerts] with its early return. *)
Fixpoint rangeAlerts (alerts : list Alert) : M (option error) :=
  match alerts with
  | [] => mret None
  | alert :: rest =>
      let incident := alertToIncident alert in
      '(response, err) ← serviceNow_CreateIncident incident;
      logf Debug "Response %s" [ArgResponse response];;
      match err with
      | Some e =>
          logf Err "Error while creating incident: %v" [ArgError e];;
          mret (Some e)
      | None => rangeAlerts rest
      end
  end.

Definition manageIncidents (data : Data) (config : Config) : M (option error) :=
  logf Info "Alerts: Status=%s, GroupLabels=%v, CommonLabels=%v"
    [ArgString (DataStatus data); ArgKV (GroupLabels data); ArgKV (CommonLabels data)];;
  rangeAlerts (Alerts data).

(** *** The endpoint *)

Definition sendJSONResponse (w : ResponseWriter) (status : Z) (message : string)
  : M ResponseWriter :=
  let data := {| Status := status; Message := message |} in
  let bytes := Marshal data in
  let w := WriteHeader status w in
  let '(err, w) := Write bytes w in
  match err with
  | Some e => logf Err "Error writing JSON response: %s" [ArgError e];; mret w
  | None => mret w
  end.

(** The deferred [r.Body.Close()] has no effect on the values computed. *)
Definition readRequestBody (r : Request) : Data * option error :=
  Decode (Body r).

Definition webhook (w : ResponseWriter) (r : Request) : M ResponseWriter :=
  let '(data, err) := readRequestBody r in
  match err with
  | Some e =>
      logf Err "Error reading request body : %v" [ArgError e];;
      sendJSONResponse w StatusBadRequest (Error e)
  | None =>
      cfg ← readConfig;
      err ← manageIncidents data cfg;
      match err with
      | Some e =>
          logf Err "Error managing incident from alert : %v" [ArgError e];;
          sendJSONResponse w StatusInternalServerError (Error e)
      | None =>
          sendJSONResponse w StatusOK "Success"
      end
  end.

(** *** The registrations of [main] *)

Definition Handler : Type := ResponseWriter -> Request -> M ResponseWriter.

(** [promhttp.Handler()]. *)
Variable metrics : Handler.

(** [http.HandleFunc("/webhook", webhook)] and [http.Handle("/metrics", ...)]:
    each registration is a pattern and a handler. Neither pattern ends in a
    slash or names a method or a host, so each matches exactly its path. *)
Definition registrations : list (string * Handler) :=
  [("/webhook", webhook); ("/metrics", metrics)].

Fixpoint lookupHandler (routes : list (string * Handler)) (r : Request) : option Handler :=
  match routes with
  | [] => None
  | (pattern, h) :: rest =>
      if String.eqb pattern (URLPath r) then Some h else lookupHandler rest r
  end.

(** The default mux serving a request; [None] when no registration matches
    and the mux answers on its own. *)
Definition ServeHTTP (w : ResponseWriter) (r : Request) (s : World Client Response)
  : option (ResponseWriter * World Client Response) :=
  match lookupHandler registrations r with
  | Some h => Some (h w r s)
  | None => None
  end.

(** *** Notions the properties are stated with *)

(** The outcomes of submitting [incidents] to the client one after the
    other, whatever they are, and the client afterwards. *)
Fixpoint submitAll (incidents : list Incident) (c : Client)
  : list (Response * option error) * Client :=
  match incidents with
  | [] => ([], c)
  | incident :: rest =>
      let '(out, c') := CreateIncident incident c in
      let '(outs, c'') := submitAll rest c' in
      (out :: outs, c'')
  end.

Definition succeeded (out : Response * option error) : Prop := out.2 = None.

Definition responseRecord (out : Response * option error) : LogRecord Response :=
  {| level := Debug; format := "Response %s"; args := [ArgResponse out.1] |}.

Definition failureRecord (e : error) : LogRecord Response :=
  {| level := Err; format := "Error while creating incident: %v"; args := [ArgError e] |}.

Definition alertsRecord (data : Data) : LogRecord Response :=
  {| level := Info; format := "Alerts: Status=%s, GroupLabels=%v, CommonLabels=%v";
     args := [ArgString (DataStatus data); ArgKV (GroupLabels data);
              ArgKV (CommonLabels data)] |}.

Definition readFailureRecord (e : error) : LogRecord Response :=
  {| level := Err; format := "Error reading request body : %v"; args := [ArgError e] |}.

Definition manageFailureRecord (e : error) : LogRecord Response :=
  {| level := Err; format := "Error managing incident from alert : %v";
     args := [ArgError e] |}.

Definition writeFailureLog (fault : option error) : list (LogRecord Response) :=
  match fault with
  | Some e => [{| level := Err; format := "Error writing JSON response: %s";
                  args := [ArgError e] |}]
  | None => []
  end.

End Bridge.

(** A response of the endpoint: the status line holds [code], and one
    document was written, an object with the members [statusKey], holding
    [code] as a number, and [messageKey], holding [message]. *)
Definition respondsWith (statusKey messageKey : string) (code : Z) (message : string)
    (w : ResponseWriter) : Prop :=
  statusLine w = Some code /\
  exists doc, written w = [doc] /\
    field statusKey doc = Some (JNumber code) /\
    field messageKey doc = Some (JString message).

(** ** Collaborators for running the program on concrete requests *)

(** A scripted client: each call takes the next outcome of the script (nil
    for success); once the script is used up every call succeeds. *)
Definition scriptedCreateIncident (incident : Incident) (script : list (option error))
  : (string * option error) * list (option error) :=
  match script with
  | [] => (("created " ++ ShortDescription incident)%string, None, [])
  | None :: rest => (("created " ++ ShortDescription incident)%string, None, rest)
  | Some e :: rest => ("", Some e, rest)
  end.

#[local] Instance scriptedClient : ServiceNow (list (option error)) string :=
  {| CreateIncident := scriptedCreateIncident |}.

(** A reader of JSON text, standing for the decoder when the handler is run
    on a concrete body; the properties below hold for every decoder. It
    reads one value and leaves what follows it: objects, arrays, strings
    with the two-character escapes, integers and the three literals. *)
Definition dquote : ascii := "034"%char.
Definition backslash : ascii := "092"%char.

Definition isSpace (c : ascii) : bool :=
  (c =? " ")%char || (c =? "009")%char || (c =? "010")%char || (c =? "013")%char.

Fixpoint skipSpace (s : string) : string :=
  match s with
  | String c rest => if isSpace c then skipSpace rest else s
  | EmptyString => s
  end.

Definition unescape (c : ascii) : option ascii :=
  if (c =? dquote)%char then Some dquote
  else if (c =? backslash)%char then Some backslash
  else if (c =? "/")%char then Some "/"%char
  else if (c =? "b")%char then Some "008"%char
  else if (c =? "f")%char then Some "012"%char
  else if (c =? "n")%char then Some "010"%char
  else if (c =? "r")%char then Some "013"%char
  else if (c =? "t")%char then Some "009"%char
  else None.

(** The text of a string literal after its opening quote, and what follows
    the closing quote. *)
Fixpoint scanString (s : string) : option (string * string) :=
  match s with
  | EmptyString => None
  | String c rest =>
      if (c =? dquote)%char then Some (EmptyString, rest)
      else if (c =? backslash)%char then
        match rest with
        | String e rest' =>
            match unescape e, scanString rest' with
            | Some c', Some (text, after) => Some (String c' text, after)
            | _, _ => None
            end
        | EmptyString => None
        end
      else
        match scanString rest with
        | Some (text, after) => Some (String c text, after)
        | None => None
        end
  end.

Definition digit (c : ascii) : option Z :=
  let n := Z.of_nat (nat_of_ascii c) in
  if ((48 <=? n) && (n <=? 57))%Z then Some (n - 48) else None.

Fixpoint scanDigits (acc : Z) (s : string) : Z * string :=
  match s with
  | String c rest =>
      match digit c with
      | Some d => scanDigits (10 * acc + d) rest
      | None => (acc, s)
      end
  | EmptyString => (acc, s)
  end.

Definition scanNumber (s : string) : option (Z * string) :=
  match s with
  | String c rest =>
      if (c =? "-")%char then
        match rest with
        | String d _ =>
            match digit d with
            | Some _ => let '(n, after) := scanDigits 0 rest in Some (- n, after)
            | None => None
            end
        | EmptyString => None
        end
      else
        match digit c with
        | Some _ => Some (scanDigits 0 s)
        | None => None
        end
  | EmptyString => None
  end.

Fixpoint stripPrefix (p s : string) : option string :=
  match p, s with
  | EmptyString, _ => Some s
  | String a p', String b s' => if (a =? b)%char then stripPrefix p' s' else None
  | String _ _, EmptyString => None
  end.

Definition scanLiteral (s : string) : option (json * string) :=
  match stripPrefix "null" s, stripPrefix "true" s, stripPrefix "false" s with
  | Some after, _, _ => Some (JNull, after)
  | _, Some after, _ => Some (JBool true, after)
  | _, _, Some after => Some (JBool false, after)
  | _, _, _ =>
      match scanNumber s with
      | Some (n, after) => Some (JNumber n, after)
      | None => None
      end
  end.

Fixpoint parseValue (fuel : nat) (s : string) {struct fuel} : option (json * string) :=
  match fuel with
  | O => None
  | S fuel =>
      match skipSpace s with
      | EmptyString => None
      | String c rest =>
          if (c =? "{")%char then
            match skipSpace rest with
            | String c' rest' =>
                if (c' =? "}")%char then Some (JObject [], rest')
                else
                  match parseMembers fuel rest with
                  | Some (members, after) => Some (JObject members, after)
                  | None => None
                  end
            | EmptyString => None
            end
          else if (c =? "[")%char then
            match skipSpace rest with
            | String c' rest' =>
                if (c' =? "]")%char then Some (JArray [], rest')
                else
                  match parseItems fuel rest with
                  | Some (items, after) => Some (JArray items, after)
                  | None => None
                  end
            | EmptyString => None
            end
          else if (c =? dquote)%char then
            match scanString rest with
            | Some (text, after) => Some (JString text, after)
            | None => None
            end
          else scanLiteral (String c rest)
      end
  end
with parseMembers (fuel : nat) (s : string) {struct fuel}
  : option (list (string * json) * string) :=
  match fuel with
  | O => None
  | S fuel =>
      match skipSpace s with
      | String c rest =>
          if (c =? dquote)%char then
            match scanString rest with
            | Some (key, after) =>
                match skipSpace after with
                | String colon after' =>
                    if (colon =? ":")%char then
                      match parseValue fuel after' with
                      | Some (v, after'') =>
                          match skipSpace after'' with
                          | String sep tail =>
                              if (sep =? "}")%char then Some ([(key, v)], tail)
                              else if (sep =? ",")%char then
                                match parseMembers fuel tail with
                                | Some (more, final) => Some ((key, v) :: more, final)
                                | None => None
                                end
                              else None
                          | EmptyString => None
                          end
                      | None => None
                      end
                    else None
                | EmptyString => None
                end
            | None => None
            end
          else None
      | EmptyString => None
      end
  end
with parseItems (fuel : nat) (s : string) {struct fuel} : option (list json * string) :=
  match fuel with
  | O => None
  | S fuel =>
      match parseValue fuel s with
      | Some (v, after) =>
          match skipSpace after with
          | String sep tail =>
              if (sep =? "]")%char then Some ([v], tail)
              else if (sep =? ",")%char then
                match parseItems fuel tail with
                | Some (more, final) => Some (v :: more, final)
                | None => None
                end
              else None
          | EmptyString => None
          end
      | None => None
      end
  end.

(** Filling a [template.Data] from a document: a member that is absent or
    null leaves the zero value of its field; a member of another kind than
    its field is an error. *)
Definition stringOf (v : option json) : option string :=
  match v with
  | None | Some JNull => Some ""
  | Some (JString s) => Some s
  | Some _ => None
  end.

Definition kvOf (v : option json) : option KV :=
  match v with
  | None | Some JNull => Some ∅
  | Some (JObject members) =>
      foldl (fun acc kv =>
               match acc, stringOf (Some kv.2) with
               | Some m, Some text => Some (<[kv.1 := text]> m)
               | _, _ => None
               end) (Some ∅) members
  | Some _ => None
  end.

Definition alertOf (v : json) : option Alert :=
  match v with
  | JNull =>
      Some {| AlertStatus := ""; Labels := ∅; Annotations := ∅;
              StartsAt := ""; EndsAt := ""; GeneratorURL := "" |}
  | JObject members =>
      status ← stringOf (member "status" members);
      labels ← kvOf (member "labels" members);
      annotations ← kvOf (member "annotations" members);
      startsAt ← stringOf (member "startsAt" members);
      endsAt ← stringOf (member "endsAt" members);
      generatorURL ← stringOf (member "generatorURL" members);
      Some {| AlertStatus := status; Labels := labels; Annotations := annotations;
              StartsAt := startsAt; EndsAt := endsAt; GeneratorURL := generatorURL |}
  | _ => None
  end.

Definition alertsOf (v : option json) : option (list Alert) :=
  match v with
  | None | Some JNull => Some []
  | Some (JArray items) => mapM alertOf items
  | Some _ => None
  end.

(** [template.Data{}], the value the decoder starts from. *)
Definition zeroData : Data :=
  {| Receiver := ""; DataStatus := ""; Alerts := []; GroupLabels := ∅;
     CommonLabels := ∅; CommonAnnotations := ∅; ExternalURL := "" |}.

Definition dataOf (v : json) : option Data :=
  match v with
  | JNull => Some zeroData
  | JObject members =>
      receiver ← stringOf (member "receiver" members);
      status ← stringOf (member "status" members);
      alerts ← alertsOf (member "alerts" members);
      groupLabels ← kvOf (member "groupLabels" members);
      commonLabels ← kvOf (member "commonLabels" members);
      commonAnnotations ← kvOf (member "commonAnnotations" members);
      externalURL ← stringOf (member "externalURL" members);
      Some {| Receiver := receiver; DataStatus := status; Alerts := alerts;
              GroupLabels := groupLabels; CommonLabels := commonLabels;
              CommonAnnotations := commonAnnotations; ExternalURL := externalURL |}
  | _ => None
  end.

Definition errEOF : error := mkError "EOF".
Definition errSyntax : error := mkError "invalid character in JSON input".
Definition errType : error :=
  mkError "json: cannot unmarshal into Go value of type template.Data".

Definition jsonDecode (body : string) : Data * option error :=
  match skipSpace body with
  | EmptyString => (zeroData, Some errEOF)
  | String _ _ =>
      match parseValue (S (String.length body)) body with
      | None => (zeroData, Some errSyntax)
      | Some (v, _) =>
          match dataOf v with
          | Some data => (data, None)
          | None => (zeroData, Some errType)
          end
      end
  end.

(** Sample values. Request bodies are spelled with ['] for the double
    quote. *)
Fixpoint text (s : string) : string :=
  match s with
  | EmptyString => EmptyString
  | String c rest => String (if (c =? "'")%char then dquote else c) (text rest)
  end.

Definition post (body : string) : Request :=
  {| Method := "POST"; URLPath := "/webhook"; Body := text body |}.

Definition sampleConfig : Config :=
  {| ServiceNowSection :=
       {| InstanceName := "dev"; UserName := "bridge"; Password := "secret" |} |}.

Definition sampleWorld (script : list (option error)) : World (list (option error)) string :=
  {| config := sampleConfig; serviceNow := script; submitted := []; journal := [] |}.

Definition sampleAlert (group summary description : string) : Alert :=
  {| AlertStatus := "firing";
     Labels := {[ "assignment_group" := group ]};
     Annotations := {[ "summary" := summary; "description" := description ]};
     StartsAt := ""; EndsAt := ""; GeneratorURL := "" |}.

Definition sampleData (alerts : list Alert) : Data :=
  {| Receiver := "servicenow"; DataStatus := "firing"; Alerts := alerts;
     GroupLabels := ∅; CommonLabels := ∅; CommonAnnotations := ∅; ExternalURL := "" |}.

Definition errRemote : error := mkError "ServiceNow answered 403 Forbidden".

(** ** Startup *)

(** A command-line flag as the [var] block declares it: name, help text and
    default. *)
Record Flag := {
  flagName : string;
  flagHelp : string;
  flagDefault : string
}.

Definition configFile : Flag :=
  {| flagName := "config.file"; flagHelp := "ServiceNow configuration file.";
     flagDefault := "config/servicenow.yml" |}.

Definition listenAddress : Flag :=
  {| flagName := "web.listen-address";
     flagHelp := "The address to listen on for HTTP requests.";
     flagDefault := ":9877" |}.

(** The value a flag points to once [kingpin.Parse] has run on a command
    line that sets the flags of [commandLine]: the value given, or the
    default. *)
Definition flagValue (commandLine : gmap string string) (f : Flag) : string :=
  match commandLine !! flagName f with
  | Some v => v
  | None => flagDefault f
  end.

(** [Config{}]. *)
Definition zeroConfig : Config :=
  {| ServiceNowSection := {| InstanceName := ""; UserName := ""; Password := "" |} |}.

(** What startup prints through the logger. *)
Inductive StartupRecord :=
| LogInfo (args : list string)
| LogInfof (fmt : string) (arg : string)
| LogFatalf (fmt : string) (e : error)
| LogFatal (e : error).

(** The process while [main] runs: the globals [config] and [serviceNow]
    (nil until [createSnClient] assigns it), the patterns registered with
    the default mux, the address being served, and the traces of files
    read, of [NewServiceNowClient] calls and of log output. *)
Record Process (Client Response : Type) := {
  globalConfig : Config;
  globalServiceNow : option Client;
  routes : list (string * @Handler Client Response);
  listening : option string;
  filesRead : list string;
  clientsBuilt : list (string * string * string);
  console : list StartupRecord
}.

Arguments globalConfig {Client Response} _.
Arguments globalServiceNow {Client Response} _.
Arguments routes {Client Response} _.
Arguments listening {Client Response} _.
Arguments filesRead {Client Response} _.
Arguments clientsBuilt {Client Response} _.
Arguments console {Client Response} _.

(** How a piece of startup code ends: it returns, or the process has exited
    in [log.Fatal] or [log.Fatalf], or it is blocked in [ListenAndServe],
    serving. *)
Inductive Outcome (A : Type) :=
| Returned (a : A)
| Exited
| Serving.

Arguments Returned {A} a.
Arguments Exited {A}.
Arguments Serving {A}.

Section Startup.

Context {Client Response : Type} `{!ServiceNow Client Response}.

Variable Decode : string -> Data * option error.
Variable metrics : @Handler Client Response.

(** [ioutil.ReadFile], [yaml.Unmarshal] into a [Config], the constructor
    [NewServiceNowClient] (declared outside [main.go]), the error with which
    [http.ListenAndServe] returns at once, if it does, and the two strings
    of [version]. *)
Variable ReadFile : string -> string * option error.
Variable Unmarshal : string -> Config -> Config * option error.
Variable NewServiceNowClient : string -> string -> string -> option Client * option error.
Variable listenError : string -> option error.
Variable versionInfo : string.
Variable versionBuildContext : string.

Definition Startup (A : Type) : Type :=
  Process Client Response -> Outcome A * Process Client Response.

#[local] Instance Startup_ret : MRet Startup := fun A (a : A) p => (Returned a, p).

#[local] Instance Startup_bind : MBind Startup :=
  fun A B (f : A -> Startup B) (m : Startup A) p =>
    match m p with
    | (Returned a, p') => f a p'
    | (Exited, p') => (Exited, p')
    | (Serving, p') => (Serving, p')
    end.

Definition print (record : StartupRecord) : Startup unit :=
  fun p => (Returned tt,
            {| globalConfig := globalConfig p; globalServiceNow := globalServiceNow p;
               routes := routes p; listening := listening p; filesRead := filesRead p;
               clientsBuilt := clientsBuilt p; console := console p ++ [record] |}).

(** [log.Fatalf] and [log.Fatal] print and end the process. *)
Definition fatal {A : Type} (record : StartupRecord) : Startup A :=
  fun p => (Exited, (print record p).2).

Definition ioutil_ReadFile (filename : string) : Startup (string * option error) :=
  fun p => (Returned (ReadFile filename),
            {| globalConfig := globalConfig p; globalServiceNow := globalServiceNow p;
               routes := routes p; listening := listening p;
               filesRead := filesRead p ++ [filename];
               clientsBuilt := clientsBuilt p; console := console p |}).

Definition call_NewServiceNowClient (instanceName userName password : string)
  : Startup (option Client * option error) :=
  fun p => (Returned (NewServiceNowClient instanceName userName password),
            {| globalConfig := globalConfig p; globalServiceNow := globalServiceNow p;
               routes := routes p; listening := listening p; filesRead := filesRead p;
               clientsBuilt := clientsBuilt p ++ [(instanceName, userName, password)];
               console := console p |}).

Definition setConfig (c : Config) : Startup unit :=
  fun p => (Returned tt,
            {| globalConfig := c; globalServiceNow := globalServiceNow p;
               routes := routes p; listening := listening p; filesRead := filesRead p;
               clientsBuilt := clientsBuilt p; console := console p |}).

Definition setServiceNow (c : option Client) : Startup unit :=
  fun p => (Returned tt,
            {| globalConfig := globalConfig p; globalServiceNow := c;
               routes := routes p; listening := listening p; filesRead := filesRead p;
               clientsBuilt := clientsBuilt p; console := console p |}).

Definition getServiceNow : Startup (option Client) :=
  fun p => (Returned (globalServiceNow p), p).

(** [http.HandleFunc] and [http.Handle] on the default mux. *)
Definition http_Handle (pattern : string) (h : @Handler Client Response) : Startup unit :=
  fun p => (Returned tt,
            {| globalConfig := globalConfig p; globalServiceNow := globalServiceNow p;
               routes := routes p ++ [(pattern, h)]; listening := listening p;
               filesRead := filesRead p; clientsBuilt := clientsBuilt p;
               console := console p |}).

(** [http.ListenAndServe] returns only with an error; otherwise it serves
    and [main] goes no further. *)
Definition http_ListenAndServe (addr : string) : Startup error :=
  fun p =>
    match listenError addr with
    | Some e => (Returned e, p)
    | None =>
        (Serving,
         {| globalConfig := globalConfig p; globalServiceNow := globalServiceNow p;
            routes := routes p; listening := Some addr; filesRead := filesRead p;
            clientsBuilt := clientsBuilt p; console := console p |})
    end.

Definition loadConfig (configFile : string) : Startup Config :=
  let config := zeroConfig in
  '(configData, err) ← ioutil_ReadFile configFile;
  match err with
  | Some e => fatal (LogFatalf "Error: %v" e)
  | None =>
      let '(config, errYAML) := Unmarshal configData config in
      match errYAML with
      | Some e => fatal (LogFatalf "Error: %v" e)
      | None => mret config
      end
  end.

Definition createSnClient (config : Config) : Startup (option Client) :=
  '(client, err) ← call_NewServiceNowClient
                     (InstanceName (ServiceNowSection config))
                     (UserName (ServiceNowSection config))
                     (Password (ServiceNowSection config));
  setServiceNow client;;
  match err with
  | Some e => fatal (LogFatalf "Error creating the ServiceNow client: %v" e)
  | None =>
      print (LogInfo ["ServiceNow config loaded"]);;
      getServiceNow
  end.

(** [main], from the parsed command line on. *)
Definition main (commandLine : gmap string string) : Startup unit :=
  cfg ← loadConfig (flagValue commandLine configFile);
  setConfig cfg;;
  createSnClient cfg;;
  print (LogInfo ["Starting webhook"; versionInfo]);;
  print (LogInfo ["Build context"; versionBuildContext]);;
  http_Handle "/webhook" (webhook Decode);;
  http_Handle "/metrics" metrics;;
  print (LogInfof "listening on: %v" (flagValue commandLine listenAddress));;
  e ← http_ListenAndServe (flagValue commandLine listenAddress);
  fatal (LogFatal e).

(** The process as the program is started. *)
Definition initialProcess : Process Client Response :=
  {| globalConfig := zeroConfig; globalServiceNow := None; routes := [];
     listening := None; filesRead := []; clientsBuilt := []; console := [] |}.

(** The state a handler runs in, in a process that is serving: the two
    globals, with nothing submitted or logged by a handler yet. *)
Definition firstWorld (p : Process Client Response) : option (World Client Response) :=
  match listening p, globalServiceNow p with
  | Some _, Some client =>
      Some {| config := globalConfig p; serviceNow := client;
              submitted := []; journal := [] |}
  | _, _ => None
  end.

End Startup.

(** Stand-ins for the file system, the YAML reader and the client
    constructor when startup is run on concrete values. *)
Definition sampleYAML : string := "service_now: {instance_name: dev, user_name: bridge, password: secret}".

Definition sampleReadFile (filename : string) : string * option error :=
  if String.eqb filename "config/servicenow.yml" then (sampleYAML, None)
  else if String.eqb filename "config/broken.yml" then ("service_now: [", None)
  else if String.eqb filename "config/nopassword.yml" then ("service_now: {}", None)
  else ("", Some (mkError "open: no such file or directory")).

Definition sampleUnmarshal (content : string) (c : Config) : Config * option error :=
  if String.eqb content sampleYAML then (sampleConfig, None)
  else if String.eqb content "service_now: {}" then (c, None)
  else (c, Some (mkError "yaml: did not find expected node content")).

Definition sampleNewClient (instanceName userName password : string)
  : option (list (option error)) * option error :=
  if String.eqb password "" then (None, Some (mkError "missing password"))
  else (Some [], None).

Definition sampleMetrics : @Handler (list (option error)) string :=
  fun w r s => (w, s).


(** * Properties *)

Section Properties.

Context {Client Response : Type} `{!ServiceNow Client Response}.
Variable Decode : string -> Data * option error.

Implicit Types (s : World Client Response) (w : ResponseWriter) (r : Request).

Local Ltac same_world :=
  cbn; unfold appendJournal; cbn; f_equal; f_equal; cbn;
  rewrite <- ?(assoc_L (++)); cbn; try reflexivity.

Lemma appendJournal_nil s : appendJournal [] s = s.
Proof. destruct s. unfold appendJournal. cbn. by rewrite app_nil_r. Qed.

Lemma appendJournal_app (l1 l2 : list (LogRecord Response)) s :
  appendJournal l2 (appendJournal l1 s) = appendJournal (l1 ++ l2) s.
Proof. unfold appendJournal. cbn. by rewrite (assoc_L (++)). Qed.


(** One turn of the loop. *)
Lemma rangeAlerts_cons alert rest s :
  rangeAlerts (alert :: rest) s =
    let '(out, s1) := serviceNow_CreateIncident (alertToIncident alert) s in
    let s2 := appendJournal [responseRecord out] s1 in
    match out.2 with
    | Some e => (Some e, appendJournal [failureRecord e] s2)
    | None => rangeAlerts rest s2
    end.
Proof.
  cbn. unfold mbind, M_bind.
  destruct (serviceNow_CreateIncident (alertToIncident alert) s) as [[response err] s1].
  cbn. destruct err; reflexivity.
Qed.

(** The loop over a run of successful submissions. *)
Lemma rangeAlerts_succeed alerts : forall s outs c',
  submitAll (alertToIncident <$> alerts) (serviceNow s) = (outs, c') ->
  Forall succeeded outs ->
  rangeAlerts alerts s =
    (None, {| config := config s; serviceNow := c';
              submitted := submitted s ++ (alertToIncident <$> alerts);
              journal := journal s ++ (responseRecord <$> outs) |}).
Proof.
  induction alerts as [|alert rest IH]; intros s outs c' Hrun Hok.
  - cbn in Hrun. injection Hrun as <- <-. cbn. rewrite !app_nil_r. by destruct s.
  - rewrite rangeAlerts_cons. cbn in Hrun. unfold serviceNow_CreateIncident.
    destruct (CreateIncident (alertToIncident alert) (serviceNow s)) as [out c1] eqn:Hcall.
    destruct (submitAll (alertToIncident <$> rest) c1) as [outs' c2] eqn:Hrest.
    injection Hrun as <- <-. apply Forall_cons in Hok as [Hout Hok].
    unfold succeeded in Hout. rewrite Hout. cbn.
    erewrite IH; [|cbn; exact Hrest|exact Hok]. same_world.
Qed.

(** The loop up to the first failing submission. *)
Lemma rangeAlerts_fail pre alert post : forall s outs c1 response e c2,
  submitAll (alertToIncident <$> pre) (serviceNow s) = (outs, c1) ->
  Forall succeeded outs ->
  CreateIncident (alertToIncident alert) c1 = ((response, Some e), c2) ->
  rangeAlerts (pre ++ alert :: post) s =
    (Some e, {| config := config s; serviceNow := c2;
                submitted := submitted s ++ (alertToIncident <$> (pre ++ [alert]));
                journal := journal s ++ (responseRecord <$> outs)
                             ++ [responseRecord (response, Some e); failureRecord e] |}).
Proof.
  induction pre as [|first pre IH]; intros s outs c1 response e c2 Hrun Hok Hcall.
  - cbn in Hrun. injection Hrun as <- <-. cbn [app]. rewrite rangeAlerts_cons.
    unfold serviceNow_CreateIncident. rewrite Hcall. same_world.
  - cbn [app]. rewrite rangeAlerts_cons. cbn in Hrun. unfold serviceNow_CreateIncident.
    destruct (CreateIncident (alertToIncident first) (serviceNow s)) as [out c0] eqn:Hfirst.
    destruct (submitAll (alertToIncident <$> pre) c0) as [outs' c1'] eqn:Hrest.
    injection Hrun as <- <-. apply Forall_cons in Hok as [Hout Hok].
    unfold succeeded in Hout. rewrite Hout. cbn.
    erewrite IH; [|cbn; exact Hrest|exact Hok|exact Hcall]. same_world.
Qed.

(** Whatever the client answers, the submissions made are those of a prefix
    of the batch, in order. *)
Lemma rangeAlerts_prefix alerts : forall s,
  exists n, (n <= length alerts)%nat /\
    submitted (rangeAlerts alerts s).2 = submitted s ++ (alertToIncident <$> take n alerts).
Proof.
  induction alerts as [|alert rest IH]; intros s.
  - exists 0%nat. cbn. by rewrite app_nil_r.
  - rewrite rangeAlerts_cons. unfold serviceNow_CreateIncident.
    destruct (CreateIncident (alertToIncident alert) (serviceNow s)) as [[response err] c1].
    cbn. destruct err as [e|].
    + exists 1%nat. cbn. split; [lia|]. by rewrite take_0.
    + match goal with |- context [rangeAlerts rest ?s1] => destruct (IH s1) as (n & Hn & Heq) end.
      exists (S n). split; [cbn; lia|]. rewrite Heq. cbn. by rewrite <- (assoc_L (++)).
Qed.

Lemma manageIncidents_unfold data cfg s :
  manageIncidents data cfg s = rangeAlerts (Alerts data) (appendJournal [alertsRecord data] s).
Proof. reflexivity. Qed.

(** *** The pipeline *)

(** C3. When every submission of the batch succeeds, [manageIncidents]
    returns no error and [CreateIncident] has been called exactly once per
    alert, [length (Alerts data)] calls in all, in the order of the batch. *)
Theorem manageIncidents_all_succeed (data : Data) (cfg : Config) s outs c' :
  submitAll (alertToIncident <$> Alerts data) (serviceNow s) = (outs, c') ->
  Forall succeeded outs ->
  (manageIncidents data cfg s).1 = None /\
  submitted (manageIncidents data cfg s).2
    = submitted s ++ (alertToIncident <$> Alerts data) /\
  length (submitted (manageIncidents data cfg s).2)
    = (length (submitted s) + length (Alerts data))%nat /\
  serviceNow (manageIncidents data cfg s).2 = c'.
Proof.
  intros Hrun Hok. rewrite manageIncidents_unfold.
  rewrite (rangeAlerts_succeed _ (appendJournal [alertsRecord data] s) outs c' Hrun Hok). cbn.
  rewrite length_app, length_fmap. done.
Qed.

(** C2. When the submission for the alert at index [k] fails and those
    before it succeed, [manageIncidents] returns that error after exactly
    [k + 1] calls of [CreateIncident], those for the alerts at indices up to
    [k]; none is made for a later alert. *)
Theorem manageIncidents_first_failure (data : Data) (cfg : Config) s
    (k : nat) (alert : Alert) outs c1 response e c2 :
  Alerts data !! k = Some alert ->
  submitAll (alertToIncident <$> take k (Alerts data)) (serviceNow s) = (outs, c1) ->
  Forall succeeded outs ->
  CreateIncident (alertToIncident alert) c1 = ((response, Some e), c2) ->
  (manageIncidents data cfg s).1 = Some e /\
  submitted (manageIncidents data cfg s).2
    = submitted s ++ (alertToIncident <$> take (S k) (Alerts data)) /\
  length (submitted (manageIncidents data cfg s).2)
    = (length (submitted s) + (k + 1))%nat /\
  serviceNow (manageIncidents data cfg s).2 = c2.
Proof.
  intros Hk Hrun Hok Hcall. rewrite manageIncidents_unfold.
  pose proof (rangeAlerts_fail (take k (Alerts data)) alert (drop (S k) (Alerts data))
                (appendJournal [alertsRecord data] s) outs c1 response e c2 Hrun Hok Hcall)
    as Hloop.
  rewrite (take_drop_middle _ _ _ Hk) in Hloop. rewrite Hloop. cbn.
  rewrite (take_S_r _ _ _ Hk).
  rewrite length_app, length_fmap, length_app, length_take. cbn.
  apply lookup_lt_Some in Hk. repeat split; try done. lia.
Qed.

(** *** The endpoint *)

(** A response sent on a writer as the server hands it over. *)
Lemma sendJSONResponse_fresh (fault : option error) (status : Z) (message : string) s :
  sendJSONResponse (newResponseWriter fault) status message s =
    ({| statusLine := Some status;
        written := [Marshal {| Status := status; Message := message |}];
        writeFault := fault |},
     appendJournal (writeFailureLog fault) s).
Proof.
  unfold sendJSONResponse. cbn. destruct fault as [e|]; cbn.
  - reflexivity.
  - by rewrite appendJournal_nil.
Qed.

Lemma webhook_undecoded w r s data e :
  Decode (Body r) = (data, Some e) ->
  webhook Decode w r s =
    sendJSONResponse w StatusBadRequest (Error e) (appendJournal [readFailureRecord e] s).
Proof. intros Hdec. unfold webhook, readRequestBody. rewrite Hdec. reflexivity. Qed.

Lemma webhook_decoded w r s data :
  Decode (Body r) = (data, None) ->
  webhook Decode w r s =
    match (manageIncidents data (config s) s).1 with
    | Some e =>
        sendJSONResponse w StatusInternalServerError (Error e)
          (appendJournal [manageFailureRecord e] (manageIncidents data (config s) s).2)
    | None => sendJSONResponse w StatusOK "Success" (manageIncidents data (config s) s).2
    end.
Proof.
  intros Hdec. unfold webhook, readRequestBody. rewrite Hdec.
  cbn. unfold mbind, M_bind, readConfig.
  destruct (manageIncidents data (config s) s) as [[e|] s1]; reflexivity.
Qed.

Lemma Marshal_respondsWith (code : Z) (message : string) (fault : option error) :
  respondsWith "Status" "Message" code message
    {| statusLine := Some code;
       written := [Marshal {| Status := code; Message := message |}];
       writeFault := fault |}.
Proof. split; [reflexivity|]. eexists. by repeat split. Qed.

(** C4. When the body fails to decode, the endpoint responds with status
    400 and the text of the decode error as the message; the pipeline is not
    run: no [CreateIncident] call is made, the client is as before, and the
    log gains the read failure only (and the write failure, if any). *)
Theorem webhook_decode_failure r s (fault : option error) (data : Data) (e : error) :
  Decode (Body r) = (data, Some e) ->
  statusLine (webhook Decode (newResponseWriter fault) r s).1 = Some 400 /\
  written (webhook Decode (newResponseWriter fault) r s).1
    = [Marshal {| Status := 400; Message := Error e |}] /\
  submitted (webhook Decode (newResponseWriter fault) r s).2 = submitted s /\
  serviceNow (webhook Decode (newResponseWriter fault) r s).2 = serviceNow s /\
  journal (webhook Decode (newResponseWriter fault) r s).2
    = journal s ++ readFailureRecord e :: writeFailureLog fault.
Proof.
  intros Hdec. rewrite (webhook_undecoded _ _ _ _ _ Hdec), sendJSONResponse_fresh. cbn.
  repeat split. by rewrite <- (assoc_L (++)).
Qed.


(** C6, as the code has it. Every response of the endpoint has one of the
    codes 200, 400 and 500 on its status line and one document as its body,
    an object of exactly the two members "Status", holding that same code as
    a number, and "Message", holding a string. *)
Theorem webhook_response_shape r s (fault : option error) :
  exists code message,
    (code = 200 \/ code = 400 \/ code = 500) /\
    respondsWith "Status" "Message" code message
      (webhook Decode (newResponseWriter fault) r s).1 /\
    keys <$> written (webhook Decode (newResponseWriter fault) r s).1
      = [["Status"; "Message"]].
Proof.
  destruct (Decode (Body r)) as [data [e|]] eqn:Hdec.
  - rewrite (webhook_undecoded _ _ _ _ _ Hdec), sendJSONResponse_fresh.
    exists 400, (Error e). split; [tauto|]. split; [apply Marshal_respondsWith|done].
  - rewrite (webhook_decoded _ _ _ _ Hdec).
    destruct (manageIncidents data (config s) s).1 as [e|]; rewrite sendJSONResponse_fresh.
    + exists 500, (Error e). split; [tauto|]. split; [apply Marshal_respondsWith|done].
    + exists 200, "Success". split; [tauto|]. split; [apply Marshal_respondsWith|done].
Qed.

(** C7. When the body decodes and the pipeline returns no error, the
    endpoint responds with status 200 and the message "Success". *)
Theorem webhook_success r s (fault : option error) (data : Data) :
  Decode (Body r) = (data, None) ->
  (manageIncidents data (config s) s).1 = None ->
  statusLine (webhook Decode (newResponseWriter fault) r s).1 = Some 200 /\
  written (webhook Decode (newResponseWriter fault) r s).1
    = [Marshal {| Status := 200; Message := "Success" |}].
Proof.
  intros Hdec Hok. rewrite (webhook_decoded _ _ _ _ Hdec), Hok, sendJSONResponse_fresh.
  by split.
Qed.


(** *** The registration *)

(** C10. The registration of [webhook] names no method and [webhook] reads
    none: a request to /webhook is served by [webhook], and is processed as
    a POST with the same body is, whatever its method. *)
Theorem webhook_any_method (metrics : Handler) (m body : string) w s :
  ServeHTTP Decode metrics w {| Method := m; URLPath := "/webhook"; Body := body |} s
    = Some (webhook Decode w {| Method := m; URLPath := "/webhook"; Body := body |} s) /\
  webhook Decode w {| Method := m; URLPath := "/webhook"; Body := body |} s
    = webhook Decode w {| Method := "POST"; URLPath := "/webhook"; Body := body |} s.
Proof. split; reflexivity. Qed.

End Properties.

(** ** The mapper *)

(** C1. [alertToIncident] is a total function, and its result has the seven
    fields as follows: the assignment group, the description and the short
    description are the values of "assignment_group" in the labels and of
    "description" and "summary" in the annotations, each the empty string
    when the key is absent; the other four are constants. *)
Theorem alertToIncident_fields (alert : Alert) :
  AssignmentGroup (alertToIncident alert)
    = default "" (Labels alert !! "assignment_group") /\
  ContactType (alertToIncident alert) = "Monitoring System" /\
  CallerID (alertToIncident alert) = "Prometheus" /\
  Description (alertToIncident alert)
    = default "" (Annotations alert !! "description") /\
  Impact (alertToIncident alert) = "4" /\
  ShortDescription (alertToIncident alert)
    = default "" (Annotations alert !! "summary") /\
  Urgency (alertToIncident alert) = "3".
Proof.
  unfold alertToIncident, index. cbn.
  repeat split; match goal with |- context [?m !! ?k] => by destruct (m !! k) end.
Qed.

(** C8. [alertToIncident] is a function of the alert's labels and
    annotations: two alerts that agree on both, and so an alert mapped
    twice, yield the same incident. *)
Theorem alertToIncident_deterministic (a1 a2 : Alert) :
  Labels a1 = Labels a2 ->
  Annotations a1 = Annotations a2 ->
  alertToIncident a1 = alertToIncident a2.
Proof. intros HL HA. unfold alertToIncident. by rewrite HL, HA. Qed.

Lemma alertToIncident_deterministic_witness :
  alertToIncident (sampleAlert "G" "S" "D")
    = alertToIncident
        {| AlertStatus := "resolved"; Labels := Labels (sampleAlert "G" "S" "D");
           Annotations := Annotations (sampleAlert "G" "S" "D");
           StartsAt := "2018-08-01T10:00:00Z"; EndsAt := ""; GeneratorURL := "http://prom" |}.
Proof. apply alertToIncident_deterministic; reflexivity. Defined.

(** ** The properties on concrete batches and requests *)

Lemma manageIncidents_all_succeed_witness :
  (manageIncidents (sampleData [sampleAlert "G1" "S1" "D1"; sampleAlert "G2" "S2" "D2"])
     sampleConfig (sampleWorld [])).1 = None /\
  submitted (manageIncidents (sampleData [sampleAlert "G1" "S1" "D1"; sampleAlert "G2" "S2" "D2"])
     sampleConfig (sampleWorld [])).2
    = [] ++ (alertToIncident <$> [sampleAlert "G1" "S1" "D1"; sampleAlert "G2" "S2" "D2"]) /\
  length (submitted (manageIncidents
     (sampleData [sampleAlert "G1" "S1" "D1"; sampleAlert "G2" "S2" "D2"])
     sampleConfig (sampleWorld [])).2) = (0 + 2)%nat /\
  serviceNow (manageIncidents (sampleData [sampleAlert "G1" "S1" "D1"; sampleAlert "G2" "S2" "D2"])
     sampleConfig (sampleWorld [])).2 = [].
Proof.
  apply (manageIncidents_all_succeed
           (sampleData [sampleAlert "G1" "S1" "D1"; sampleAlert "G2" "S2" "D2"])
           sampleConfig (sampleWorld [])
           [("created S1", None); ("created S2", None)] []).
  - reflexivity.
  - repeat constructor.
Defined.

Lemma manageIncidents_first_failure_witness :
  (manageIncidents
     (sampleData [sampleAlert "G1" "S1" "D1"; sampleAlert "G2" "S2" "D2"; sampleAlert "G3" "S3" "D3"])
     sampleConfig (sampleWorld [None; Some errRemote; None])).1 = Some errRemote /\
  submitted (manageIncidents
     (sampleData [sampleAlert "G1" "S1" "D1"; sampleAlert "G2" "S2" "D2"; sampleAlert "G3" "S3" "D3"])
     sampleConfig (sampleWorld [None; Some errRemote; None])).2
    = [] ++ (alertToIncident <$> [sampleAlert "G1" "S1" "D1"; sampleAlert "G2" "S2" "D2"]) /\
  length (submitted (manageIncidents
     (sampleData [sampleAlert "G1" "S1" "D1"; sampleAlert "G2" "S2" "D2"; sampleAlert "G3" "S3" "D3"])
     sampleConfig (sampleWorld [None; Some errRemote; None])).2) = (0 + (1 + 1))%nat /\
  serviceNow (manageIncidents
     (sampleData [sampleAlert "G1" "S1" "D1"; sampleAlert "G2" "S2" "D2"; sampleAlert "G3" "S3" "D3"])
     sampleConfig (sampleWorld [None; Some errRemote; None])).2 = [None].
Proof.
  apply (manageIncidents_first_failure
           (sampleData [sampleAlert "G1" "S1" "D1"; sampleAlert "G2" "S2" "D2";
                        sampleAlert "G3" "S3" "D3"])
           sampleConfig (sampleWorld [None; Some errRemote; None])
           1%nat (sampleAlert "G2" "S2" "D2")
           [("created S1", None)] [Some errRemote; None] "" errRemote [None]).
  - reflexivity.
  - reflexivity.
  - repeat constructor.
  - reflexivity.
Defined.

Lemma webhook_decode_failure_witness :
  statusLine (webhook jsonDecode (newResponseWriter None) (post "{'alerts': [")
                (sampleWorld [])).1 = Some 400 /\
  written (webhook jsonDecode (newResponseWriter None) (post "{'alerts': [")
             (sampleWorld [])).1
    = [Marshal {| Status := 400; Message := Error errSyntax |}] /\
  submitted (webhook jsonDecode (newResponseWriter None) (post "{'alerts': [")
               (sampleWorld [])).2 = [] /\
  serviceNow (webhook jsonDecode (newResponseWriter None) (post "{'alerts': [")
                (sampleWorld [])).2 = [] /\
  journal (webhook jsonDecode (newResponseWriter None) (post "{'alerts': [")
             (sampleWorld [])).2
    = [] ++ readFailureRecord errSyntax :: writeFailureLog None.
Proof.
  apply (webhook_decode_failure jsonDecode (post "{'alerts': [") (sampleWorld []) None zeroData).
  vm_compute. reflexivity.
Defined.


Lemma webhook_success_witness :
  statusLine (webhook jsonDecode (newResponseWriter None)
                (post "{'status': 'firing', 'alerts': [{'labels': {'assignment_group': 'G'}}]}")
                (sampleWorld [])).1 = Some 200 /\
  written (webhook jsonDecode (newResponseWriter None)
             (post "{'status': 'firing', 'alerts': [{'labels': {'assignment_group': 'G'}}]}")
             (sampleWorld [])).1
    = [Marshal {| Status := 200; Message := "Success" |}].
Proof.
  apply (webhook_success jsonDecode
           (post "{'status': 'firing', 'alerts': [{'labels': {'assignment_group': 'G'}}]}")
           (sampleWorld []) None
           (jsonDecode
              (text "{'status': 'firing', 'alerts': [{'labels': {'assignment_group': 'G'}}]}")).1).
  - vm_compute. reflexivity.
  - vm_compute. reflexivity.
Defined.


(** C6, as the claim words it, fails: the members of the response are named
    "Status" and "Message", so the response to the body [{}] is not an object
    with a member "status" holding the code and a member "message". *)
Lemma webhook_response_keys_counterexample :
  ~ exists code message,
      respondsWith "status" "message" code message
        (webhook jsonDecode (newResponseWriter None) (post "{}") (sampleWorld [])).1.
Proof.
  intros (code & message & _ & doc & Hdoc & Hstatus & _).
  vm_compute in Hdoc. injection Hdoc as <-. vm_compute in Hstatus. discriminate Hstatus.
Qed.

(** The round trip of the specification: one alert with summary S,
    description D and assignment group G. *)
Example endpoint_round_trip :
  let '(w, s) :=
    webhook jsonDecode (newResponseWriter None)
      (post "{'alerts': [{'labels': {'assignment_group': 'G'},
                          'annotations': {'summary': 'S', 'description': 'D'}}]}")
      (sampleWorld []) in
  submitted s =
    [{| AssignmentGroup := "G"; ContactType := "Monitoring System"; CallerID := "Prometheus";
        Description := "D"; Impact := "4"; ShortDescription := "S"; Urgency := "3" |}] /\
  statusLine w = Some 200 /\
  written w = [JObject [("Status", JNumber 200); ("Message", JString "Success")]].
Proof. vm_compute. repeat split. Qed.

(** * Further properties of the pipeline and the endpoint *)

Section Outcomes.

Context {Client Response : Type} `{!ServiceNow Client Response}.
Variable Decode : string -> Data * option error.

Implicit Types (s : World Client Response) (w : ResponseWriter) (r : Request).

(** A sequence of submissions either succeeds throughout or has a first
    failure. *)
Lemma submitAll_cases (incidents : list Incident) : forall c : Client,
  Forall succeeded (submitAll incidents c).1 \/
  exists k incident response e c2,
    incidents !! k = Some incident /\
    Forall succeeded (submitAll (take k incidents) c).1 /\
    CreateIncident incident (submitAll (take k incidents) c).2 = ((response, Some e), c2).
Proof.
  induction incidents as [|incident rest IH]; intros c.
  - left. constructor.
  - destruct (CreateIncident incident c) as [[response err] c1] eqn:Hcall.
    destruct err as [e|].
    + right. exists 0%nat, incident, response, e, c1. cbn. by repeat split.
    + destruct (IH c1) as [Hall | (k & i & resp & e & c2 & Hk & Hpre & Hfail)].
      * left. cbn. rewrite Hcall.
        destruct (submitAll rest c1) as [outs c']. cbn in *. by constructor.
      * right. exists (S k), i, resp, e, c2. cbn. rewrite Hcall.
        destruct (submitAll (take k rest) c1) as [outs c']. cbn in *.
        repeat split; try done. by constructor.
Qed.

(** The loop, by cases on what the client answers. *)
Lemma rangeAlerts_outcome (alerts : list Alert) s :
  (Forall succeeded (submitAll (alertToIncident <$> alerts) (serviceNow s)).1 /\
   rangeAlerts alerts s =
     (None, {| config := config s;
               serviceNow := (submitAll (alertToIncident <$> alerts) (serviceNow s)).2;
               submitted := submitted s ++ (alertToIncident <$> alerts);
               journal := journal s ++ (responseRecord <$>
                            (submitAll (alertToIncident <$> alerts) (serviceNow s)).1) |})) \/
  (exists k alert response e c2,
     alerts !! k = Some alert /\
     Forall succeeded (submitAll (alertToIncident <$> take k alerts) (serviceNow s)).1 /\
     CreateIncident (alertToIncident alert)
       (submitAll (alertToIncident <$> take k alerts) (serviceNow s)).2
       = ((response, Some e), c2) /\
     rangeAlerts alerts s =
       (Some e, {| config := config s; serviceNow := c2;
                   submitted := submitted s ++ (alertToIncident <$> take (S k) alerts);
                   journal := journal s ++ (responseRecord <$>
                                (submitAll (alertToIncident <$> take k alerts) (serviceNow s)).1)
                                ++ [responseRecord (response, Some e); failureRecord e] |})).
Proof.
  destruct (submitAll_cases (alertToIncident <$> alerts) (serviceNow s))
    as [Hall | (k & incident & response & e & c2 & Hk & Hpre & Hfail)].
  - left. split; [exact Hall|].
    apply rangeAlerts_succeed; [|exact Hall].
    by destruct (submitAll (alertToIncident <$> alerts) (serviceNow s)).
  - right. rewrite list_lookup_fmap in Hk.
    destruct (alerts !! k) as [alert|] eqn:Halert; [|discriminate].
    cbn in Hk. injection Hk as <-. rewrite <- fmap_take in Hpre, Hfail.
    exists k, alert, response, e, c2. repeat split; try done.
    rewrite <- (take_drop_middle alerts k alert Halert) at 1.
    rewrite (take_S_r _ _ _ Halert).
    apply rangeAlerts_fail with (c1 := (submitAll (alertToIncident <$> take k alerts)
                                          (serviceNow s)).2); try done.
    by destruct (submitAll (alertToIncident <$> take k alerts) (serviceNow s)).
Qed.

(** *** The pipeline, whatever the client answers *)

(** [manageIncidents], by cases on what the client answers. *)
Lemma manageIncidents_outcome (data : Data) (cfg : Config) s :
  (Forall succeeded (submitAll (alertToIncident <$> Alerts data) (serviceNow s)).1 /\
   manageIncidents data cfg s =
     (None, {| config := config s;
               serviceNow := (submitAll (alertToIncident <$> Alerts data) (serviceNow s)).2;
               submitted := submitted s ++ (alertToIncident <$> Alerts data);
               journal := (journal s ++ [alertsRecord data]) ++ (responseRecord <$>
                            (submitAll (alertToIncident <$> Alerts data) (serviceNow s)).1) |})) \/
  (exists k alert response e c2,
     Alerts data !! k = Some alert /\
     Forall succeeded
       (submitAll (alertToIncident <$> take k (Alerts data)) (serviceNow s)).1 /\
     CreateIncident (alertToIncident alert)
       (submitAll (alertToIncident <$> take k (Alerts data)) (serviceNow s)).2
       = ((response, Some e), c2) /\
     manageIncidents data cfg s =
       (Some e, {| config := config s; serviceNow := c2;
                   submitted := submitted s ++ (alertToIncident <$> take (S k) (Alerts data));
                   journal := (journal s ++ [alertsRecord data]) ++ (responseRecord <$>
                                (submitAll (alertToIncident <$> take k (Alerts data))
                                   (serviceNow s)).1)
                                ++ [responseRecord (response, Some e); failureRecord e] |})).
Proof.
  rewrite manageIncidents_unfold.
  exact (rangeAlerts_outcome (Alerts data) (appendJournal [alertsRecord data] s)).
Qed.


(** X1. Whatever the client answers, the submissions [manageIncidents] makes
    are those for a prefix of the batch, in batch order, so at most one per
    alert; the configuration is left as it was. *)
Theorem manageIncidents_calls_prefix (data : Data) (cfg : Config) s :
  config (manageIncidents data cfg s).2 = config s /\
  exists n, (n <= length (Alerts data))%nat /\
    submitted (manageIncidents data cfg s).2
      = submitted s ++ (alertToIncident <$> take n (Alerts data)).
Proof.
  destruct (manageIncidents_outcome data cfg s)
    as [[_ ->] | (k & alert & response & e & c2 & Hk & _ & _ & ->)]; cbn.
  - split; [done|]. exists (length (Alerts data)). by rewrite firstn_all.
  - split; [done|]. exists (S k). split; [|done].
    apply lookup_lt_Some in Hk. lia.
Qed.

(** X2. When [manageIncidents] returns no error, every alert of the batch
    has been submitted, once and in order, every one of these submissions
    succeeded, and the client is as they left it. *)
Theorem manageIncidents_nil_all_submitted (data : Data) (cfg : Config) s :
  (manageIncidents data cfg s).1 = None ->
  submitted (manageIncidents data cfg s).2
    = submitted s ++ (alertToIncident <$> Alerts data) /\
  Forall succeeded (submitAll (alertToIncident <$> Alerts data) (serviceNow s)).1 /\
  serviceNow (manageIncidents data cfg s).2
    = (submitAll (alertToIncident <$> Alerts data) (serviceNow s)).2.
Proof.
  destruct (manageIncidents_outcome data cfg s)
    as [[Hall ->] | (k & alert & response & e & c2 & _ & _ & _ & ->)]; cbn.
  - done.
  - discriminate.
Qed.

(** X3. An error returned by [manageIncidents] is the error of the last
    submission it made: that of some alert at an index [k], after the
    submissions for the alerts before it, which all succeeded; the alerts
    after it were not submitted. *)
Theorem manageIncidents_error_origin (data : Data) (cfg : Config) s (e : error) :
  (manageIncidents data cfg s).1 = Some e ->
  exists k alert response,
    Alerts data !! k = Some alert /\
    Forall succeeded
      (submitAll (alertToIncident <$> take k (Alerts data)) (serviceNow s)).1 /\
    CreateIncident (alertToIncident alert)
      (submitAll (alertToIncident <$> take k (Alerts data)) (serviceNow s)).2
      = ((response, Some e), serviceNow (manageIncidents data cfg s).2) /\
    submitted (manageIncidents data cfg s).2
      = submitted s ++ (alertToIncident <$> take (S k) (Alerts data)).
Proof.
  destruct (manageIncidents_outcome data cfg s)
    as [[_ ->] | (k & alert & response & e' & c2 & Hk & Hpre & Hcall & ->)]; cbn.
  - discriminate.
  - intros [= <-]. exists k, alert, response. by repeat split.
Qed.


(** *** The endpoint *)

(** The response on a fresh writer: a code, a message and a state that do
    not depend on whether the write goes through. *)
Lemma webhook_fresh r s :
  exists code message s1,
    forall fault : option error,
      webhook Decode (newResponseWriter fault) r s =
        ({| statusLine := Some code;
            written := [Marshal {| Status := code; Message := message |}];
            writeFault := fault |},
         appendJournal (writeFailureLog fault) s1).
Proof.
  destruct (Decode (Body r)) as [data [e|]] eqn:Hdec.
  - eexists _, _, _. intros fault.
    rewrite (webhook_undecoded _ _ _ _ _ _ Hdec). apply sendJSONResponse_fresh.
  - destruct (manageIncidents data (config s) s).1 as [e|] eqn:Hrun.
    + eexists _, _, _. intros fault.
      rewrite (webhook_decoded _ _ _ _ _ Hdec), Hrun. apply sendJSONResponse_fresh.
    + eexists _, _, _. intros fault.
      rewrite (webhook_decoded _ _ _ _ _ Hdec), Hrun. apply sendJSONResponse_fresh.
Qed.

(** X5. A response with status 200 means the body decoded and every alert
    of the decoded batch was submitted, once and in order. *)
Theorem webhook_ok_all_submitted r s (fault : option error) :
  statusLine (webhook Decode (newResponseWriter fault) r s).1 = Some 200 ->
  (Decode (Body r)).2 = None /\
  submitted (webhook Decode (newResponseWriter fault) r s).2
    = submitted s ++ (alertToIncident <$> Alerts (Decode (Body r)).1).
Proof.
  destruct (Decode (Body r)) as [data [e|]] eqn:Hdec.
  - rewrite (webhook_undecoded _ _ _ _ _ _ Hdec), sendJSONResponse_fresh. cbn. discriminate.
  - rewrite (webhook_decoded _ _ _ _ _ Hdec).
    destruct (manageIncidents data (config s) s).1 as [e|] eqn:Hrun;
      rewrite sendJSONResponse_fresh; cbn; [discriminate|].
    intros _. split; [done|].
    destruct (manageIncidents_outcome data (config s) s)
      as [[_ Heq] | (k & alert & response & e & c2 & _ & _ & _ & Heq)];
      rewrite Heq in Hrun |- *; [done|discriminate].
Qed.


(** X7. The endpoint answers with status 400 exactly when the body fails to
    decode. *)
Theorem webhook_bad_request_iff r s (fault : option error) :
  statusLine (webhook Decode (newResponseWriter fault) r s).1 = Some 400
  <-> (Decode (Body r)).2 <> None.
Proof.
  destruct (Decode (Body r)) as [data [e|]] eqn:Hdec.
  - rewrite (webhook_undecoded _ _ _ _ _ _ Hdec), sendJSONResponse_fresh. cbn. by split.
  - rewrite (webhook_decoded _ _ _ _ _ Hdec).
    destruct (manageIncidents data (config s) s).1;
      rewrite sendJSONResponse_fresh; cbn; split; intros; done.
Qed.

(** X8. A response that cannot be written is logged and changes nothing
    else: the status line, the document handed to the writer, the
    submissions made and the client are those of the same request on a
    healthy connection, and the log has the write failure as one more
    record at its end. *)
Theorem webhook_write_fault r s (e : error) :
  statusLine (webhook Decode (newResponseWriter (Some e)) r s).1
    = statusLine (webhook Decode (newResponseWriter None) r s).1 /\
  written (webhook Decode (newResponseWriter (Some e)) r s).1
    = written (webhook Decode (newResponseWriter None) r s).1 /\
  submitted (webhook Decode (newResponseWriter (Some e)) r s).2
    = submitted (webhook Decode (newResponseWriter None) r s).2 /\
  serviceNow (webhook Decode (newResponseWriter (Some e)) r s).2
    = serviceNow (webhook Decode (newResponseWriter None) r s).2 /\
  journal (webhook Decode (newResponseWriter (Some e)) r s).2
    = journal (webhook Decode (newResponseWriter None) r s).2
        ++ [{| level := Err; format := "Error writing JSON response: %s";
               args := [ArgError e] |}].
Proof.
  destruct (webhook_fresh r s) as (code & message & s1 & Hrun).
  rewrite (Hrun (Some e)), (Hrun None). cbn. by rewrite app_nil_r.
Qed.

(** X9. Every request leaves the configuration as it was and keeps what was
    submitted and logged before it: both traces only grow. *)
Theorem webhook_append_only w r s :
  config (webhook Decode w r s).2 = config s /\
  (exists calls, submitted (webhook Decode w r s).2 = submitted s ++ calls) /\
  (exists records, journal (webhook Decode w r s).2 = journal s ++ records).
Proof.
  assert (Hsend : forall w' status message s',
             config (sendJSONResponse w' status message s').2 = config s' /\
             submitted (sendJSONResponse w' status message s').2 = submitted s' /\
             exists records,
               journal (sendJSONResponse w' status message s').2 = journal s' ++ records).
  { intros w' status message s'. unfold sendJSONResponse. cbn.
    destruct (writeFault (WriteHeader StatusOK (WriteHeader status w'))) as [e|]; cbn.
    - repeat split. by eexists.
    - repeat split. exists []. by rewrite app_nil_r. }
  destruct (Decode (Body r)) as [data [e|]] eqn:Hdec.
  - rewrite (webhook_undecoded _ _ _ _ _ _ Hdec).
    destruct (Hsend w StatusBadRequest (Error e) (appendJournal [readFailureRecord e] s))
      as (-> & -> & records & ->). cbn.
    split; [done|]. split.
    + exists []. by rewrite app_nil_r.
    + eexists. by rewrite <- (assoc_L (++)).
  - rewrite (webhook_decoded _ _ _ _ _ Hdec).
    destruct (manageIncidents_outcome data (config s) s)
      as [[_ Heq] | (k & alert & response & e & c2 & _ & _ & _ & Heq)];
      rewrite Heq; cbn [fst snd].
    + match goal with |- context [sendJSONResponse w ?c ?m ?s'] =>
        destruct (Hsend w c m s') as (-> & -> & records & ->) end. cbn.
      split; [done|]. split; [by eexists|].
      eexists. by rewrite <- !(assoc_L (++)).
    + match goal with |- context [sendJSONResponse w ?c ?m ?s'] =>
        destruct (Hsend w c m s') as (-> & -> & records & ->) end. cbn.
      split; [done|]. split; [by eexists|].
      eexists. by rewrite <- !(assoc_L (++)).
Qed.

End Outcomes.

(** * Further properties of the mapper *)

(** X10. Labels other than "assignment_group" and annotations other than
    "description" and "summary" do not reach the incident: adding or
    changing one leaves the incident as it is. *)
Theorem alertToIncident_other_keys_ignored (alert : Alert) (kl vl ka va : string) :
  kl <> "assignment_group" ->
  ka <> "description" ->
  ka <> "summary" ->
  alertToIncident
    {| AlertStatus := AlertStatus alert;
       Labels := <[kl := vl]> (Labels alert);
       Annotations := <[ka := va]> (Annotations alert);
       StartsAt := StartsAt alert; EndsAt := EndsAt alert;
       GeneratorURL := GeneratorURL alert |}
  = alertToIncident alert.
Proof.
  intros Hl Hd Hs. unfold alertToIncident, index. cbn.
  by rewrite !lookup_insert_ne.
Qed.

(** X11. Whatever the maps held before, an alert whose label
    "assignment_group" and annotations "summary" and "description" are set
    to [group], [summary] and [description] maps to the incident with these
    three values and the four constants. *)
Theorem alertToIncident_reads_keys (alert : Alert) (group summary description : string) :
  alertToIncident
    {| AlertStatus := AlertStatus alert;
       Labels := <["assignment_group" := group]> (Labels alert);
       Annotations := <["summary" := summary]>
                        (<["description" := description]> (Annotations alert));
       StartsAt := StartsAt alert; EndsAt := EndsAt alert;
       GeneratorURL := GeneratorURL alert |}
  = {| AssignmentGroup := group; ContactType := "Monitoring System";
       CallerID := "Prometheus"; Description := description; Impact := "4";
       ShortDescription := summary; Urgency := "3" |}.
Proof.
  unfold alertToIncident, index. cbn.
  rewrite !lookup_insert_eq, lookup_insert_ne by done.
  by rewrite lookup_insert_eq.
Qed.

(** X12. A key that is absent and a key that holds the empty string give
    the same incident: the mapper does not tell them apart. *)
Theorem alertToIncident_empty_as_absent (alert : Alert) :
  alertToIncident
    {| AlertStatus := AlertStatus alert;
       Labels := <["assignment_group" := ""]> (Labels alert);
       Annotations := <["summary" := ""]> (<["description" := ""]> (Annotations alert));
       StartsAt := StartsAt alert; EndsAt := EndsAt alert;
       GeneratorURL := GeneratorURL alert |}
  = alertToIncident
      {| AlertStatus := AlertStatus alert;
         Labels := delete "assignment_group" (Labels alert);
         Annotations := delete "summary" (delete "description" (Annotations alert));
         StartsAt := StartsAt alert; EndsAt := EndsAt alert;
         GeneratorURL := GeneratorURL alert |}.
Proof.
  unfold alertToIncident, index. cbn.
  rewrite !lookup_insert_eq, !lookup_delete_eq.
  rewrite lookup_insert_ne, lookup_delete_ne by done.
  by rewrite lookup_insert_eq, lookup_delete_eq.
Qed.

Lemma alertToIncident_other_keys_ignored_witness :
  alertToIncident
    {| AlertStatus := AlertStatus (sampleAlert "G" "S" "D");
       Labels := <["severity" := "critical"]> (Labels (sampleAlert "G" "S" "D"));
       Annotations := <["runbook" := "http://wiki"]> (Annotations (sampleAlert "G" "S" "D"));
       StartsAt := StartsAt (sampleAlert "G" "S" "D");
       EndsAt := EndsAt (sampleAlert "G" "S" "D");
       GeneratorURL := GeneratorURL (sampleAlert "G" "S" "D") |}
  = alertToIncident (sampleAlert "G" "S" "D").
Proof. apply alertToIncident_other_keys_ignored; discriminate. Defined.

(** * Properties of startup *)

Section StartupProperties.

Context {Client Response : Type} `{!ServiceNow Client Response}.
Variable Decode : string -> Data * option error.
Variable metrics : @Handler Client Response.
Variable ReadFile : string -> string * option error.
Variable Unmarshal : string -> Config -> Config * option error.
Variable NewServiceNowClient : string -> string -> string -> option Client * option error.
Variable listenError : string -> option error.
Variable versionInfo : string.
Variable versionBuildContext : string.

Implicit Types (p : Process Client Response) (commandLine : gmap string string).

Local Abbreviation run_main :=
  (main Decode metrics ReadFile Unmarshal NewServiceNowClient listenError
     versionInfo versionBuildContext).

Local Ltac startup_step :=
  cbn; unfold mbind, Startup_bind, mret, Startup_ret; cbn.

(** [loadConfig] by cases. *)
Lemma loadConfig_spec (path : string) p :
  loadConfig ReadFile Unmarshal path p =
    let p1 := {| globalConfig := globalConfig p; globalServiceNow := globalServiceNow p;
                 routes := routes p; listening := listening p;
                 filesRead := filesRead p ++ [path];
                 clientsBuilt := clientsBuilt p; console := console p |} in
    match (ReadFile path).2 with
    | Some e => (Exited, (print (LogFatalf "Error: %v" e) p1).2)
    | None =>
        match (Unmarshal (ReadFile path).1 zeroConfig).2 with
        | Some e => (Exited, (print (LogFatalf "Error: %v" e) p1).2)
        | None => (Returned (Unmarshal (ReadFile path).1 zeroConfig).1, p1)
        end
    end.
Proof.
  unfold loadConfig, ioutil_ReadFile. startup_step.
  destruct (ReadFile path) as [content [e|]]; cbn; [reflexivity|].
  destruct (Unmarshal content zeroConfig) as [c [e|]]; reflexivity.
Qed.

(** [createSnClient] by cases. *)
Lemma createSnClient_spec (cfg : Config) p :
  createSnClient NewServiceNowClient cfg p =
    let answer := NewServiceNowClient (InstanceName (ServiceNowSection cfg))
                    (UserName (ServiceNowSection cfg)) (Password (ServiceNowSection cfg)) in
    let p1 := {| globalConfig := globalConfig p; globalServiceNow := answer.1;
                 routes := routes p; listening := listening p; filesRead := filesRead p;
                 clientsBuilt := clientsBuilt p
                   ++ [(InstanceName (ServiceNowSection cfg),
                        UserName (ServiceNowSection cfg),
                        Password (ServiceNowSection cfg))];
                 console := console p |} in
    match answer.2 with
    | Some e =>
        (Exited, (print (LogFatalf "Error creating the ServiceNow client: %v" e) p1).2)
    | None => (Returned answer.1, (print (LogInfo ["ServiceNow config loaded"]) p1).2)
    end.
Proof.
  unfold createSnClient, call_NewServiceNowClient. startup_step.
  destruct (NewServiceNowClient _ _ _) as [client [e|]]; reflexivity.
Qed.

(** [main] by cases on what the file system, the YAML reader, the client
    constructor and the listener answer. *)
Lemma main_spec commandLine :
  run_main commandLine initialProcess =
    let path := flagValue commandLine configFile in
    let addr := flagValue commandLine listenAddress in
    let parsed := Unmarshal (ReadFile path).1 zeroConfig in
    let credentials := (InstanceName (ServiceNowSection parsed.1),
                        UserName (ServiceNowSection parsed.1),
                        Password (ServiceNowSection parsed.1)) in
    let answer := NewServiceNowClient credentials.1.1 credentials.1.2 credentials.2 in
    let greetings := [LogInfo ["ServiceNow config loaded"];
                      LogInfo ["Starting webhook"; versionInfo];
                      LogInfo ["Build context"; versionBuildContext];
                      LogInfof "listening on: %v" addr] in
    match (ReadFile path).2 with
    | Some e =>
        (Exited, {| globalConfig := zeroConfig; globalServiceNow := None; routes := [];
                    listening := None; filesRead := [path]; clientsBuilt := [];
                    console := [LogFatalf "Error: %v" e] |})
    | None =>
        match parsed.2 with
        | Some e =>
            (Exited, {| globalConfig := zeroConfig; globalServiceNow := None; routes := [];
                        listening := None; filesRead := [path]; clientsBuilt := [];
                        console := [LogFatalf "Error: %v" e] |})
        | None =>
            match answer.2 with
            | Some e =>
                (Exited, {| globalConfig := parsed.1; globalServiceNow := answer.1;
                            routes := []; listening := None; filesRead := [path];
                            clientsBuilt := [credentials];
                            console := [LogFatalf "Error creating the ServiceNow client: %v" e] |})
            | None =>
                match listenError addr with
                | Some e =>
                    (Exited, {| globalConfig := parsed.1; globalServiceNow := answer.1;
                                routes := registrations Decode metrics; listening := None;
                                filesRead := [path]; clientsBuilt := [credentials];
                                console := greetings ++ [LogFatal e] |})
                | None =>
                    (Serving, {| globalConfig := parsed.1; globalServiceNow := answer.1;
                                 routes := registrations Decode metrics;
                                 listening := Some addr;
                                 filesRead := [path]; clientsBuilt := [credentials];
                                 console := greetings |})
                end
            end
        end
    end.
Proof.
  unfold main, mbind, Startup_bind. rewrite loadConfig_spec. cbn.
  destruct (ReadFile (flagValue commandLine configFile)) as [content [e|]]; cbn;
    [reflexivity|].
  destruct (Unmarshal content zeroConfig) as [cfg [e|]]; cbn; [reflexivity|].
  rewrite createSnClient_spec. cbn.
  destruct (NewServiceNowClient _ _ _) as [client [e|]]; cbn; [reflexivity|].
  unfold http_ListenAndServe.
  destruct (listenError (flagValue commandLine listenAddress)) as [e|]; reflexivity.
Qed.

(** X13. When the configuration file cannot be read, [main] logs the error
    and the process exits: no client is constructed, no handler is
    registered and nothing is served. *)
Theorem main_unreadable_config commandLine (content : string) (e : error) :
  ReadFile (flagValue commandLine configFile) = (content, Some e) ->
  run_main commandLine initialProcess =
    (Exited, {| globalConfig := zeroConfig; globalServiceNow := None; routes := [];
                listening := None; filesRead := [flagValue commandLine configFile];
                clientsBuilt := []; console := [LogFatalf "Error: %v" e] |}).
Proof. intros Hread. rewrite main_spec. cbn. by rewrite Hread. Qed.

(** X14. When the configuration file is read but does not parse, [main]
    logs the error and the process exits: no client is constructed, no
    handler is registered and nothing is served. *)
Theorem main_invalid_config commandLine (content : string) (c : Config) (e : error) :
  ReadFile (flagValue commandLine configFile) = (content, None) ->
  Unmarshal content zeroConfig = (c, Some e) ->
  run_main commandLine initialProcess =
    (Exited, {| globalConfig := zeroConfig; globalServiceNow := None; routes := [];
                listening := None; filesRead := [flagValue commandLine configFile];
                clientsBuilt := []; console := [LogFatalf "Error: %v" e] |}).
Proof. intros Hread Hparse. rewrite main_spec. cbn. by rewrite Hread; cbn; rewrite Hparse. Qed.

(** X15. When the client cannot be constructed from the configuration,
    [main] logs the error and the process exits with no handler registered
    and nothing served; the constructor was called once, with the instance
    name, user name and password of the configuration. *)
Theorem main_client_failure commandLine (content : string) (cfg : Config)
    (client : option Client) (e : error) :
  ReadFile (flagValue commandLine configFile) = (content, None) ->
  Unmarshal content zeroConfig = (cfg, None) ->
  NewServiceNowClient (InstanceName (ServiceNowSection cfg))
    (UserName (ServiceNowSection cfg)) (Password (ServiceNowSection cfg))
    = (client, Some e) ->
  run_main commandLine initialProcess =
    (Exited, {| globalConfig := cfg; globalServiceNow := client; routes := [];
                listening := None; filesRead := [flagValue commandLine configFile];
                clientsBuilt := [(InstanceName (ServiceNowSection cfg),
                                  UserName (ServiceNowSection cfg),
                                  Password (ServiceNowSection cfg))];
                console := [LogFatalf "Error creating the ServiceNow client: %v" e] |}).
Proof.
  intros Hread Hparse Hnew. rewrite main_spec. cbn.
  rewrite Hread; cbn; rewrite Hparse; cbn; by rewrite Hnew.
Qed.

(** X16. When the file is read and parsed, the client is constructed and
    the listener does not fail, [main] ends up serving on the listen
    address with the global [config] the parsed configuration, the global
    [serviceNow] the client constructed from its three credentials, and
    exactly the two handlers registered, /webhook first. *)
Theorem main_serving commandLine (content : string) (cfg : Config) (client : Client) :
  ReadFile (flagValue commandLine configFile) = (content, None) ->
  Unmarshal content zeroConfig = (cfg, None) ->
  NewServiceNowClient (InstanceName (ServiceNowSection cfg))
    (UserName (ServiceNowSection cfg)) (Password (ServiceNowSection cfg))
    = (Some client, None) ->
  listenError (flagValue commandLine listenAddress) = None ->
  (run_main commandLine initialProcess).1 = Serving /\
  listening (run_main commandLine initialProcess).2
    = Some (flagValue commandLine listenAddress) /\
  routes (run_main commandLine initialProcess).2
    = [("/webhook", webhook Decode); ("/metrics", metrics)] /\
  clientsBuilt (run_main commandLine initialProcess).2
    = [(InstanceName (ServiceNowSection cfg), UserName (ServiceNowSection cfg),
        Password (ServiceNowSection cfg))] /\
  firstWorld (run_main commandLine initialProcess).2
    = Some {| config := cfg; serviceNow := client; submitted := []; journal := [] |}.
Proof.
  intros Hread Hparse Hnew Hlisten. rewrite main_spec. cbn.
  rewrite Hread; cbn; rewrite Hparse; cbn; rewrite Hnew; cbn; by rewrite Hlisten.
Qed.

(** X17. When the listener fails, [main] logs its error as fatal and the
    process exits without serving. *)
Theorem main_listen_failure commandLine (content : string) (cfg : Config)
    (client : option Client) (e : error) :
  ReadFile (flagValue commandLine configFile) = (content, None) ->
  Unmarshal content zeroConfig = (cfg, None) ->
  NewServiceNowClient (InstanceName (ServiceNowSection cfg))
    (UserName (ServiceNowSection cfg)) (Password (ServiceNowSection cfg))
    = (client, None) ->
  listenError (flagValue commandLine listenAddress) = Some e ->
  (run_main commandLine initialProcess).1 = Exited /\
  listening (run_main commandLine initialProcess).2 = None /\
  last (console (run_main commandLine initialProcess).2) = Some (LogFatal e).
Proof.
  intros Hread Hparse Hnew Hlisten. rewrite main_spec. cbn.
  rewrite Hread; cbn; rewrite Hparse; cbn; rewrite Hnew; cbn; by rewrite Hlisten.
Qed.


(** X19. The process comes to serve only when the configuration file was
    read and parsed, the client constructed and the listener started, each
    without error. *)
Theorem main_serving_only_if commandLine :
  (run_main commandLine initialProcess).1 = Serving ->
  exists content cfg client,
    ReadFile (flagValue commandLine configFile) = (content, None) /\
    Unmarshal content zeroConfig = (cfg, None) /\
    NewServiceNowClient (InstanceName (ServiceNowSection cfg))
      (UserName (ServiceNowSection cfg)) (Password (ServiceNowSection cfg))
      = (client, None) /\
    listenError (flagValue commandLine listenAddress) = None /\
    globalConfig (run_main commandLine initialProcess).2 = cfg /\
    globalServiceNow (run_main commandLine initialProcess).2 = client.
Proof.
  rewrite main_spec. cbn.
  destruct (ReadFile (flagValue commandLine configFile)) as [content [e|]] eqn:Hread; cbn;
    [discriminate|].
  destruct (Unmarshal content zeroConfig) as [cfg [e|]] eqn:Hparse; cbn; [discriminate|].
  destruct (NewServiceNowClient _ _ _) as [client [e|]] eqn:Hnew; cbn; [discriminate|].
  destruct (listenError _) as [e|] eqn:Hlisten; cbn; [discriminate|].
  intros _. exists content, cfg, client. by repeat split.
Qed.


(** X21. [loadConfig] returns only a configuration that the YAML reader
    produced without error from the content of the file it was asked for,
    starting from the zero configuration; it reads that one file and leaves
    the globals alone. *)
Theorem loadConfig_returned (path : string) p (c : Config) p' :
  loadConfig ReadFile Unmarshal path p = (Returned c, p') ->
  (exists content, ReadFile path = (content, None) /\
                   Unmarshal content zeroConfig = (c, None)) /\
  filesRead p' = filesRead p ++ [path] /\
  globalConfig p' = globalConfig p /\
  globalServiceNow p' = globalServiceNow p /\
  console p' = console p.
Proof.
  rewrite loadConfig_spec. cbn.
  destruct (ReadFile path) as [content [e|]] eqn:Hread; cbn; [discriminate|].
  destruct (Unmarshal content zeroConfig) as [c' [e|]] eqn:Hparse; cbn; [discriminate|].
  intros [= <- <-]. cbn. split; [by exists content|done].
Qed.

(** X22. [createSnClient] returns only a client the constructor produced
    without error from the three credentials of the configuration, and that
    client is then the global [serviceNow]. *)
Theorem createSnClient_returned (cfg : Config) p (c : option Client) p' :
  createSnClient NewServiceNowClient cfg p = (Returned c, p') ->
  NewServiceNowClient (InstanceName (ServiceNowSection cfg))
    (UserName (ServiceNowSection cfg)) (Password (ServiceNowSection cfg)) = (c, None) /\
  globalServiceNow p' = c /\
  clientsBuilt p' = clientsBuilt p
    ++ [(InstanceName (ServiceNowSection cfg), UserName (ServiceNowSection cfg),
         Password (ServiceNowSection cfg))] /\
  globalConfig p' = globalConfig p.
Proof.
  rewrite createSnClient_spec. cbn.
  destruct (NewServiceNowClient _ _ _) as [client [e|]] eqn:Hnew; cbn; [discriminate|].
  by intros [= <- <-].
Qed.

End StartupProperties.

(** ** The further properties on concrete values *)

Lemma manageIncidents_nil_all_submitted_witness :
  submitted (manageIncidents (sampleData [sampleAlert "G1" "S1" "D1"; sampleAlert "G2" "S2" "D2"])
               sampleConfig (sampleWorld [None])).2
    = [] ++ (alertToIncident <$> [sampleAlert "G1" "S1" "D1"; sampleAlert "G2" "S2" "D2"]) /\
  Forall succeeded
    (submitAll (alertToIncident <$> [sampleAlert "G1" "S1" "D1"; sampleAlert "G2" "S2" "D2"])
       [None]).1 /\
  serviceNow (manageIncidents (sampleData [sampleAlert "G1" "S1" "D1"; sampleAlert "G2" "S2" "D2"])
                sampleConfig (sampleWorld [None])).2
    = (submitAll (alertToIncident <$> [sampleAlert "G1" "S1" "D1"; sampleAlert "G2" "S2" "D2"])
         [None]).2.
Proof.
  apply (manageIncidents_nil_all_submitted
           (sampleData [sampleAlert "G1" "S1" "D1"; sampleAlert "G2" "S2" "D2"])
           sampleConfig (sampleWorld [None])).
  reflexivity.
Defined.

Lemma manageIncidents_error_origin_witness :
  exists k alert response,
    [sampleAlert "G1" "S1" "D1"; sampleAlert "G2" "S2" "D2"] !! k = Some alert /\
    Forall succeeded
      (submitAll (alertToIncident <$> take k [sampleAlert "G1" "S1" "D1"; sampleAlert "G2" "S2" "D2"])
         [Some errRemote]).1 /\
    CreateIncident (alertToIncident alert)
      (submitAll (alertToIncident <$> take k [sampleAlert "G1" "S1" "D1"; sampleAlert "G2" "S2" "D2"])
         [Some errRemote]).2
      = ((response, Some errRemote),
         serviceNow (manageIncidents
                       (sampleData [sampleAlert "G1" "S1" "D1"; sampleAlert "G2" "S2" "D2"])
                       sampleConfig (sampleWorld [Some errRemote])).2) /\
    submitted (manageIncidents
                 (sampleData [sampleAlert "G1" "S1" "D1"; sampleAlert "G2" "S2" "D2"])
                 sampleConfig (sampleWorld [Some errRemote])).2
      = [] ++ (alertToIncident <$>
                 take (S k) [sampleAlert "G1" "S1" "D1"; sampleAlert "G2" "S2" "D2"]).
Proof.
  apply (manageIncidents_error_origin
           (sampleData [sampleAlert "G1" "S1" "D1"; sampleAlert "G2" "S2" "D2"])
           sampleConfig (sampleWorld [Some errRemote]) errRemote).
  reflexivity.
Defined.

Lemma webhook_ok_all_submitted_witness :
  (jsonDecode (Body (post "{'alerts': [{'annotations': {'summary': 'S'}}, {}]}"))).2 = None /\
  submitted (webhook jsonDecode (newResponseWriter None)
               (post "{'alerts': [{'annotations': {'summary': 'S'}}, {}]}")
               (sampleWorld [])).2
    = [] ++ (alertToIncident <$>
               Alerts (jsonDecode (Body (post "{'alerts': [{'annotations': {'summary': 'S'}}, {}]}"))).1).
Proof.
  apply (webhook_ok_all_submitted jsonDecode
           (post "{'alerts': [{'annotations': {'summary': 'S'}}, {}]}")
           (sampleWorld []) None).
  vm_compute. reflexivity.
Defined.


Lemma main_unreadable_config_witness :
  main jsonDecode sampleMetrics sampleReadFile sampleUnmarshal sampleNewClient
    (fun _ => None) "v1" "go" {[ "config.file" := "config/absent.yml" ]} initialProcess
  = (Exited, {| globalConfig := zeroConfig; globalServiceNow := None; routes := [];
                listening := None; filesRead := ["config/absent.yml"];
                clientsBuilt := [];
                console := [LogFatalf "Error: %v"
                              (mkError "open: no such file or directory")] |}).
Proof.
  exact (main_unreadable_config jsonDecode sampleMetrics sampleReadFile sampleUnmarshal
           sampleNewClient (fun _ => None) "v1" "go"
           {[ "config.file" := "config/absent.yml" ]} ""
           (mkError "open: no such file or directory") eq_refl).
Defined.

Lemma main_invalid_config_witness :
  main jsonDecode sampleMetrics sampleReadFile sampleUnmarshal sampleNewClient
    (fun _ => None) "v1" "go" {[ "config.file" := "config/broken.yml" ]} initialProcess
  = (Exited, {| globalConfig := zeroConfig; globalServiceNow := None; routes := [];
                listening := None; filesRead := ["config/broken.yml"];
                clientsBuilt := [];
                console := [LogFatalf "Error: %v"
                              (mkError "yaml: did not find expected node content")] |}).
Proof.
  exact (main_invalid_config jsonDecode sampleMetrics sampleReadFile sampleUnmarshal
           sampleNewClient (fun _ => None) "v1" "go"
           {[ "config.file" := "config/broken.yml" ]} "service_now: [" zeroConfig
           (mkError "yaml: did not find expected node content") eq_refl eq_refl).
Defined.

Lemma main_client_failure_witness :
  main jsonDecode sampleMetrics sampleReadFile sampleUnmarshal sampleNewClient
    (fun _ => None) "v1" "go" {[ "config.file" := "config/nopassword.yml" ]} initialProcess
  = (Exited, {| globalConfig := zeroConfig; globalServiceNow := None; routes := [];
                listening := None; filesRead := ["config/nopassword.yml"];
                clientsBuilt := [("", "", "")];
                console := [LogFatalf "Error creating the ServiceNow client: %v"
                              (mkError "missing password")] |}).
Proof.
  exact (main_client_failure jsonDecode sampleMetrics sampleReadFile sampleUnmarshal
           sampleNewClient (fun _ => None) "v1" "go"
           {[ "config.file" := "config/nopassword.yml" ]} "service_now: {}" zeroConfig None
           (mkError "missing password") eq_refl eq_refl eq_refl).
Defined.

Lemma main_serving_witness :
  (main jsonDecode sampleMetrics sampleReadFile sampleUnmarshal sampleNewClient
     (fun _ => None) "v1" "go" ∅ initialProcess).1 = Serving /\
  listening (main jsonDecode sampleMetrics sampleReadFile sampleUnmarshal sampleNewClient
               (fun _ => None) "v1" "go" ∅ initialProcess).2 = Some ":9877" /\
  routes (main jsonDecode sampleMetrics sampleReadFile sampleUnmarshal sampleNewClient
            (fun _ => None) "v1" "go" ∅ initialProcess).2
    = [("/webhook", webhook jsonDecode); ("/metrics", sampleMetrics)] /\
  clientsBuilt (main jsonDecode sampleMetrics sampleReadFile sampleUnmarshal sampleNewClient
                  (fun _ => None) "v1" "go" ∅ initialProcess).2
    = [("dev", "bridge", "secret")] /\
  firstWorld (main jsonDecode sampleMetrics sampleReadFile sampleUnmarshal sampleNewClient
                (fun _ => None) "v1" "go" ∅ initialProcess).2
    = Some (sampleWorld []).
Proof.
  exact (main_serving jsonDecode sampleMetrics sampleReadFile sampleUnmarshal
           sampleNewClient (fun _ => None) "v1" "go" ∅ sampleYAML sampleConfig []
           eq_refl eq_refl eq_refl eq_refl).
Defined.

Lemma main_listen_failure_witness :
  (main jsonDecode sampleMetrics sampleReadFile sampleUnmarshal sampleNewClient
     (fun _ => Some (mkError "listen tcp :9877: bind: address already in use"))
     "v1" "go" ∅ initialProcess).1 = Exited /\
  listening (main jsonDecode sampleMetrics sampleReadFile sampleUnmarshal sampleNewClient
     (fun _ => Some (mkError "listen tcp :9877: bind: address already in use"))
     "v1" "go" ∅ initialProcess).2 = None /\
  last (console (main jsonDecode sampleMetrics sampleReadFile sampleUnmarshal sampleNewClient
     (fun _ => Some (mkError "listen tcp :9877: bind: address already in use"))
     "v1" "go" ∅ initialProcess).2)
    = Some (LogFatal (mkError "listen tcp :9877: bind: address already in use")).
Proof.
  exact (main_listen_failure jsonDecode sampleMetrics sampleReadFile sampleUnmarshal
           sampleNewClient
           (fun _ => Some (mkError "listen tcp :9877: bind: address already in use"))
           "v1" "go" ∅ sampleYAML sampleConfig (Some [])
           (mkError "listen tcp :9877: bind: address already in use")
           eq_refl eq_refl eq_refl eq_refl).
Defined.

Lemma main_serving_only_if_witness :
  exists content cfg client,
    sampleReadFile (flagValue ∅ configFile) = (content, None) /\
    sampleUnmarshal content zeroConfig = (cfg, None) /\
    sampleNewClient (InstanceName (ServiceNowSection cfg))
      (UserName (ServiceNowSection cfg)) (Password (ServiceNowSection cfg))
      = (client, None) /\
    (fun _ : string => @None error) (flagValue ∅ listenAddress) = None /\
    globalConfig (main jsonDecode sampleMetrics sampleReadFile sampleUnmarshal sampleNewClient
                    (fun _ => None) "v1" "go" ∅ initialProcess).2 = cfg /\
    globalServiceNow (main jsonDecode sampleMetrics sampleReadFile sampleUnmarshal
                        sampleNewClient (fun _ => None) "v1" "go" ∅ initialProcess).2 = client.
Proof.
  exact (main_serving_only_if jsonDecode sampleMetrics sampleReadFile sampleUnmarshal
           sampleNewClient (fun _ => None) "v1" "go" ∅
           eq_refl).
Defined.


Lemma loadConfig_returned_witness :
  (exists content, sampleReadFile "config/servicenow.yml" = (content, None) /\
                   sampleUnmarshal content zeroConfig = (sampleConfig, None)) /\
  filesRead (loadConfig sampleReadFile sampleUnmarshal "config/servicenow.yml"
               (@initialProcess (list (option error)) string)).2
    = [] ++ ["config/servicenow.yml"] /\
  globalConfig (loadConfig sampleReadFile sampleUnmarshal "config/servicenow.yml"
                  (@initialProcess (list (option error)) string)).2 = zeroConfig /\
  globalServiceNow (loadConfig sampleReadFile sampleUnmarshal "config/servicenow.yml"
                      (@initialProcess (list (option error)) string)).2 = None /\
  console (loadConfig sampleReadFile sampleUnmarshal "config/servicenow.yml"
             (@initialProcess (list (option error)) string)).2 = [].
Proof.
  apply (loadConfig_returned sampleReadFile sampleUnmarshal "config/servicenow.yml"
           (@initialProcess (list (option error)) string) sampleConfig
           (loadConfig sampleReadFile sampleUnmarshal "config/servicenow.yml"
              (@initialProcess (list (option error)) string)).2).
  reflexivity.
Defined.

Lemma createSnClient_returned_witness :
  sampleNewClient "dev" "bridge" "secret" = (Some [], None) /\
  globalServiceNow (createSnClient sampleNewClient sampleConfig
                      (@initialProcess (list (option error)) string)).2 = Some [] /\
  clientsBuilt (createSnClient sampleNewClient sampleConfig
                  (@initialProcess (list (option error)) string)).2
    = [] ++ [("dev", "bridge", "secret")] /\
  globalConfig (createSnClient sampleNewClient sampleConfig
                  (@initialProcess (list (option error)) string)).2 = zeroConfig.
Proof.
  apply (createSnClient_returned sampleNewClient sampleConfig
           (@initialProcess (list (option error)) string) (Some [])
           (createSnClient sampleNewClient sampleConfig
              (@initialProcess (list (option error)) string)).2).
  reflexivity.
Defined.
